(** * Food Delivery API: a shallow embedding of [main.py] and [schemas.py]

    The request handlers are translated into functions over an explicit
    document store.  Python dictionaries are finite maps from field names
    to values, Python floats are binary64 primitive floats, uncaught
    exceptions and [HTTPException]s are values of an error type. *)

From Stdlib Require Import ZArith NArith List Ascii String.
From Stdlib Require Import PrimFloat SpecFloat FloatOps.
From stdpp Require Import base option list gmap strings pretty.

Set Warnings "-inexact-float,-register-all".
Set Default Proof Using "Type".

Local Open Scope string_scope.
Local Open Scope Z_scope.

(** ** Exceptions and results *)

(** What a handler can raise.  [HTTPException] is FastAPI's; the others are
    Python exceptions that no handler catches. *)
Inductive error : Type :=
  | HTTPException (status_code : Z) (detail : string)
  | KeyError (key : string)
  | TypeError
  | ValueError
  | OverflowError
  | ValidationError.

Inductive result (A : Type) : Type :=
  | Ok (a : A)
  | Raise (e : error).
Arguments Ok {A} a.
Arguments Raise {A} e.

#[global] Instance result_ret : MRet result := λ A a, Ok a.
#[global] Instance result_bind : MBind result := λ A B k r,
  match r with
  | Ok a => k a
  | Raise e => Raise e
  end.

(** The status line FastAPI sends for a raised error: an [HTTPException]
    carries its own code, anything else is an internal server error. *)
Definition http_status (e : error) : Z :=
  match e with
  | HTTPException c _ => c
  | _ => 500
  end.

(** ** Identifiers: [bson.ObjectId]

    An identifier is twelve bytes; it is kept here as its canonical text,
    twenty-four lower-case hexadecimal digits, which is what [str] prints. *)
Inductive ObjectId : Type := OID (hex : string).

Definition ObjectId_str (o : ObjectId) : string :=
  match o with OID h => h end.

Definition ascii_between (lo hi c : ascii) : bool :=
  (N.leb (N_of_ascii lo) (N_of_ascii c)) && (N.leb (N_of_ascii c) (N_of_ascii hi)).

Definition is_hex (c : ascii) : bool :=
  ascii_between "0" "9" c || ascii_between "a" "f" c || ascii_between "A" "F" c.

Definition lower (c : ascii) : ascii :=
  if ascii_between "A" "Z" c then ascii_of_N (N_of_ascii c + 32) else c.

Fixpoint string_forallb (p : ascii → bool) (s : string) : bool :=
  match s with
  | EmptyString => true
  | String c s' => p c && string_forallb p s'
  end.

Fixpoint string_map (f : ascii → ascii) (s : string) : string :=
  match s with
  | EmptyString => EmptyString
  | String c s' => String (f c) (string_map f s')
  end.

(** [ObjectId(id_str)] on a [str]: accepted when it has 24 hexadecimal
    digits. *)
Definition ObjectId_of_str (s : string) : option ObjectId :=
  if Nat.eqb (String.length s) 24 && string_forallb is_hex s
  then Some (OID (string_map lower s))
  else None.

Definition ObjectId_eqb (a b : ObjectId) : bool :=
  String.eqb (ObjectId_str a) (ObjectId_str b).

(** [to_obj_id]: every failure of the constructor becomes a 400. *)
Definition to_obj_id (id_str : string) : result ObjectId :=
  match ObjectId_of_str id_str with
  | Some o => Ok o
  | None => Raise (HTTPException 400 "Invalid id")
  end.

(** ** Stored values and documents *)

Inductive value : Type :=
  | VNone
  | VBool (b : bool)
  | VInt (z : Z)
  | VFloat (f : float)
  | VStr (s : string)
  | VObjectId (o : ObjectId)
  | VList (l : list value)
  | VDict (d : list (string * value)).

Abbreviation dict := (gmap string value).

(** [not doc] for a dictionary: true exactly on the empty one. *)
Definition dict_is_empty (d : dict) : bool :=
  match map_to_list d with
  | [] => true
  | _ :: _ => false
  end.

(** [not doc] where [doc] may also be [None]. *)
Definition falsy (doc : option dict) : bool :=
  match doc with
  | None => true
  | Some d => dict_is_empty d
  end.

(** ** The document store

    A store holds named collections, each a list of documents in insertion
    order, and the counter from which the next identifier is drawn. *)
Record store : Type := Store {
  collections : gmap string (list dict);
  next_oid : N
}.

Definition empty_store (n : N) : store :=
  {| collections := ∅; next_oid := n |}.

(** [db[name]] *)
Definition collection (db : store) (name : string) : list dict :=
  default [] (collections db !! name).

Definition hex_char (n : N) : ascii :=
  if (n <? 10)%N then ascii_of_N (48 + n) else ascii_of_N (87 + n).

Fixpoint hex_digits (k : nat) (n : N) (acc : string) : string :=
  match k with
  | O => acc
  | S k' => hex_digits k' (n / 16)%N (String (hex_char (n mod 16)%N) acc)
  end.

(** The identifier the store draws for its next insert. *)
Definition fresh_oid (db : store) : ObjectId :=
  OID (hex_digits 24 (next_oid db) "").

(** The driver's queries. *)
Definition has_id (o : ObjectId) (d : dict) : bool :=
  match d !! "_id" with
  | Some (VObjectId o') => ObjectId_eqb o' o
  | _ => false
  end.

Definition id_in (oids : list ObjectId) (d : dict) : bool :=
  existsb (λ o, has_id o d) oids.



(** [db[name].count_documents({})] *)
Definition count_documents (db : store) (name : string) : Z :=
  Z.of_nat (length (collection db name)).

(** [db[name].find_one({"_id": o})] *)
Definition find_one_by_id (db : store) (name : string) (o : ObjectId) : option dict :=
  List.find (has_id o) (collection db name).

(** [db[name].find({"_id": {"$in": oids}})] *)
Definition find_id_in (db : store) (name : string) (oids : list ObjectId) : list dict :=
  List.filter (id_in oids) (collection db name).


(** Modelled from the spec: [create_document] of the data-access module
    [database.py], which is not among the sources.  It assigns a new
    identifier, persists the record at the end of the named collection and
    returns the identifier as a string. *)
Definition create_document (name : string) (data : dict) (db : store) : store * string :=
  let oid := fresh_oid db in
  let doc := <["_id" := VObjectId oid]> data in
  ({| collections := <[name := (collection db name ++ [doc])%list]> (collections db);
      next_oid := N.succ (next_oid db) |},
   ObjectId_str oid).

(** ** Handlers: state passing with errors *)

Definition handler (A : Type) : Type := store → store * result A.

Definition hret {A} (a : A) : handler A := λ db, (db, Ok a).

Definition hbind {A B} (m : handler A) (k : A → handler B) : handler B :=
  λ db,
    match m db with
    | (db', Ok a) => k a db'
    | (db', Raise e) => (db', Raise e)
    end.

Definition lift {A} (r : result A) : handler A := λ db, (db, r).

Definition read {A} (f : store → result A) : handler A := λ db, (db, f db).

Definition insert_document (name : string) (data : dict) : handler string :=
  λ db, let '(db', id) := create_document name data db in (db', Ok id).

Notation "'do' x <- m ; k" := (hbind m (λ x, k))
  (at level 10, x name, m at level 100, k at level 200).

Definition opt_value {A} (f : A → value) (o : option A) : value :=
  match o with
  | Some a => f a
  | None => VNone
  end.

(** ** Schemas ([schemas.py])

    A model is a record; [validate] is what its constructor checks and
    [dump] is the dictionary [create_document] stores for it. *)

Module Restaurant.
Record t : Type := Make {
  name : string;
  description : option string;
  cuisine : option string;
  image_url : option string;
  rating : option float;
  delivery_fee : option float;
  eta_minutes : option Z
}.

Definition in_range (lo hi : float) (o : option float) : bool :=
  match o with
  | Some x => (lo <=? x)%float && (x <=? hi)%float
  | None => true
  end.

Definition validate (r : t) : result t :=
  if in_range 0 5 (rating r)
     && in_range 0 infinity (delivery_fee r)
     && match eta_minutes r with Some m => 1 <=? m | None => true end
  then Ok r else Raise ValidationError.

Definition dump (r : t) : dict :=
  <["name" := VStr (name r)]>
  (<["description" := opt_value VStr (description r)]>
  (<["cuisine" := opt_value VStr (cuisine r)]>
  (<["image_url" := opt_value VStr (image_url r)]>
  (<["rating" := opt_value VFloat (rating r)]>
  (<["delivery_fee" := opt_value VFloat (delivery_fee r)]>
  (<["eta_minutes" := opt_value VInt (eta_minutes r)]> ∅)))))).
End Restaurant.

Module MenuItem.
Record t : Type := Make {
  restaurant_id : string;
  name : string;
  description : option string;
  price : float;
  image_url : option string;
  is_veg : option bool;
  spicy_level : option Z
}.

Definition validate (m : t) : result t :=
  if (0 <=? price m)%float
     && match spicy_level m with Some l => (0 <=? l) && (l <=? 3) | None => true end
  then Ok m else Raise ValidationError.

Definition dump (m : t) : dict :=
  <["restaurant_id" := VStr (restaurant_id m)]>
  (<["name" := VStr (name m)]>
  (<["description" := opt_value VStr (description m)]>
  (<["price" := VFloat (price m)]>
  (<["image_url" := opt_value VStr (image_url m)]>
  (<["is_veg" := opt_value VBool (is_veg m)]>
  (<["spicy_level" := opt_value VInt (spicy_level m)]> ∅)))))).
End MenuItem.

Module OrderItem.
Record t : Type := Make {
  menu_item_id : string;
  quantity : Z
}.

Definition valid (it : t) : Prop := 1 ≤ quantity it.

Definition dump (it : t) : value :=
  VDict [("menu_item_id", VStr (menu_item_id it)); ("quantity", VInt (quantity it))].
End OrderItem.

(** The request body of [POST /orders]. *)
Module CreateOrder.
Record t : Type := Make {
  restaurant_id : string;
  items : list OrderItem.t;
  customer_name : string;
  customer_address : string;
  customer_email : option string
}.

Definition valid (p : t) : Prop := Forall OrderItem.valid (items p).
End CreateOrder.

Module Order.
Record t : Type := Make {
  restaurant_id : string;
  customer_id : option string;
  customer_name : option string;
  customer_address : option string;
  customer_email : option string;
  items : list OrderItem.t;
  subtotal : float;
  delivery_fee : float;
  total : float;
  status : string
}.

(** Of the fields only [customer_email] can be refused: it is an
    [EmailStr], checked and normalised by [validate_email]. *)
Definition validate (validate_email : string → option string) (o : t) : result t :=
  match customer_email o with
  | None => Ok o
  | Some e =>
      match validate_email e with
      | Some e' =>
          Ok {| restaurant_id := restaurant_id o; customer_id := customer_id o;
                customer_name := customer_name o;
                customer_address := customer_address o;
                customer_email := Some e'; items := items o;
                subtotal := subtotal o; delivery_fee := delivery_fee o;
                total := total o; status := status o |}
      | None => Raise ValidationError
      end
  end.

Definition dump (o : t) : dict :=
  <["restaurant_id" := VStr (restaurant_id o)]>
  (<["customer_id" := opt_value VStr (customer_id o)]>
  (<["customer_name" := opt_value VStr (customer_name o)]>
  (<["customer_address" := opt_value VStr (customer_address o)]>
  (<["customer_email" := opt_value VStr (customer_email o)]>
  (<["items" := VList (map OrderItem.dump (items o))]>
  (<["subtotal" := VFloat (subtotal o)]>
  (<["delivery_fee" := VFloat (delivery_fee o)]>
  (<["total" := VFloat (total o)]>
  (<["status" := VStr (status o)]> ∅))))))))).
End Order.

Section Runtime.

(** Parts of the Python runtime and of pydantic that the handlers call and
    that are left open: the printing of floats and containers, the parsing
    of a float from text, and the e-mail validator (which returns the
    normalised address). *)
Variable repr_float : float → string.
Variable repr_container : value → string.
Variable float_of_str : string → option float.
Variable validate_email : string → option string.

(** [str(v)] *)
Definition py_str (v : value) : string :=
  match v with
  | VNone => "None"
  | VBool true => "True"
  | VBool false => "False"
  | VInt z => pretty z
  | VFloat f => repr_float f
  | VStr s => s
  | VObjectId o => ObjectId_str o
  | VList _ | VDict _ => repr_container v
  end.

(** [serialize]: [doc.pop("_id")] raises [KeyError] when the key is absent. *)
Definition serialize (doc : option dict) : result (option dict) :=
  if falsy doc then Ok doc
  else
    match doc with
    | None => Ok doc
    | Some d =>
        match d !! "_id" with
        | None => Raise (KeyError "_id")
        | Some v => Ok (Some (<["id" := VStr (py_str v)]> (delete "_id" d)))
        end
    end.

(** ** Float arithmetic of the runtime *)

(** [float(n)] for an [int]: the nearest double, ties to even;
    [OverflowError] when that is out of range. *)
Definition float_of_int (n : Z) : result float :=
  match binary_normalize prec emax n 0 false with
  | S754_infinity _ => Raise OverflowError
  | sf => Ok (SF2Prim sf)
  end.

(** [float(v)] *)
Definition py_float (v : value) : result float :=
  match v with
  | VFloat f => Ok f
  | VInt z => float_of_int z
  | VBool b => Ok (if b then 1 else 0)%float
  | VStr s =>
      match float_of_str s with
      | Some f => Ok f
      | None => Raise ValueError
      end
  | VNone | VObjectId _ | VList _ | VDict _ => Raise TypeError
  end.

(** [x * n] for a float [x] and an [int] [n]: the [int] is converted first. *)
Definition float_mul_int (x : float) (n : Z) : result float :=
  fn ← float_of_int n; Ok (x * fn)%float.

(** Round half to even of the rational [n / d], for [d > 0]. *)
Definition round_half_even (n d : Z) : Z :=
  let q := n / d in
  let r := n mod d in
  match 2 * r ?= d with
  | Lt => q
  | Gt => q + 1
  | Eq => if Z.even q then q else q + 1
  end.

(** The double nearest to [n / d] (ties to even), for [n ≥ 0] and [d > 0]:
    the quotient is taken with 64 more bits than [n / d] has and a sticky
    bit, then rounded once. *)
Definition nearest_double (s : bool) (n d : Z) : float :=
  if n =? 0 then SF2Prim (S754_zero s)
  else
    let k := Z.max 0 (Z.log2 d + 64 - Z.log2 n) in
    let q := (n * 2 ^ k) / d in
    let sticky := if (n * 2 ^ k) mod d =? 0 then 0 else 1 in
    let sf := binary_normalize prec emax (2 * q + sticky) (- k - 1) false in
    SF2Prim (if s then SFopp sf else sf).

(** [round(x, 2)]: the decimal with two fractional digits nearest to the
    exact value of [x] (ties to even), converted back to the nearest
    double.  Zeros, infinities and NaN round to themselves. *)
Definition round2 (x : float) : float :=
  match Prim2SF x with
  | S754_finite s m e =>
      let n :=
        if 0 <=? e then Z.pos m * 100 * 2 ^ e
        else round_half_even (Z.pos m * 100) (2 ^ (- e)) in
      nearest_double s n 100
  | _ => x
  end.

(** ** Handlers ([main.py]) *)

(** [[serialize(d) for d in docs]] *)
Fixpoint serialize_all (docs : list dict) : result (list (option dict)) :=
  match docs with
  | [] => Ok []
  | d :: ds =>
      r ← serialize (Some d);
      rs ← serialize_all ds;
      Ok (r :: rs)
  end.

Definition sample_restaurant_1 : Restaurant.t :=
  {| Restaurant.name := "Pasta Palace";
     Restaurant.description := Some "Authentic Italian pastas and pizzas";
     Restaurant.cuisine := Some "Italian";
     Restaurant.image_url :=
       Some "https://images.unsplash.com/photo-1603133872878-684f208fb84f";
     Restaurant.rating := Some 4.7%float;
     Restaurant.delivery_fee := Some 2.99%float;
     Restaurant.eta_minutes := Some 30 |}.

Definition sample_restaurant_2 : Restaurant.t :=
  {| Restaurant.name := "Spice Route";
     Restaurant.description := Some "North Indian curries and tandoori";
     Restaurant.cuisine := Some "Indian";
     Restaurant.image_url :=
       Some "https://images.unsplash.com/photo-1604908177673-3f4f5463f2ef";
     Restaurant.rating := Some 4.6%float;
     Restaurant.delivery_fee := Some 3.49%float;
     Restaurant.eta_minutes := Some 35 |}.

(** A [MenuItem(...)] call of the seeding: [is_veg] and [spicy_level] take
    their defaults unless given. *)
Definition sample_item (rid name description : string) (price : float)
    (image_url : string) (is_veg : bool) : MenuItem.t :=
  {| MenuItem.restaurant_id := rid;
     MenuItem.name := name;
     MenuItem.description := Some description;
     MenuItem.price := price;
     MenuItem.image_url := Some image_url;
     MenuItem.is_veg := Some is_veg;
     MenuItem.spicy_level := Some 0 |}.

Definition create_restaurant (r : Restaurant.t) : handler string :=
  do r' <- lift (Restaurant.validate r);
  insert_document "restaurant" (Restaurant.dump r').

Definition create_menuitem (m : MenuItem.t) : handler string :=
  do m' <- lift (MenuItem.validate m);
  insert_document "menuitem" (MenuItem.dump m').

Definition ok_response : dict := {[ "status" := VStr "ok" ]}.

(** The body of [seed_sample_data] once the store is known to be configured. *)
Definition seed_store : handler dict :=
  λ db,
    if count_documents db "restaurant" =? 0 then
      (do r1_id <- create_restaurant sample_restaurant_1;
       do r2_id <- create_restaurant sample_restaurant_2;
       do _ <- create_menuitem
         (sample_item r1_id "Margherita Pizza" "Classic with fresh basil" 12.99%float
            "https://images.unsplash.com/photo-1548365328-9f547fb09530" false);
       do _ <- create_menuitem
         (sample_item r1_id "Fettuccine Alfredo" "Creamy parmesan sauce" 14.5%float
            "https://images.unsplash.com/photo-1529042410759-befb1204b468" false);
       do _ <- create_menuitem
         (sample_item r2_id "Butter Chicken" "Rich tomato gravy" 13.99%float
            "https://images.unsplash.com/photo-1588167056547-c183313da70a" false);
       do _ <- create_menuitem
         (sample_item r2_id "Paneer Tikka" "Grilled cottage cheese" 11.25%float
            "https://images.unsplash.com/photo-1596797038530-2c107229f829" true);
       hret ok_response) db
    else (db, Ok ok_response).

(** [POST /seed]; the global [db] is [None] when no store is configured. *)
Definition seed_sample_data (db : option store) : option store * result dict :=
  match db with
  | None => (None, Raise (HTTPException 500 "Database not configured"))
  | Some st => let '(st', r) := seed_store st in (Some st', r)
  end.

(** [GET /restaurants/{restaurant_id}] *)
Definition get_restaurant (restaurant_id : string) : handler (option dict) :=
  read (λ db,
    o ← to_obj_id restaurant_id;
    let doc := find_one_by_id db "restaurant" o in
    if falsy doc then Raise (HTTPException 404 "Restaurant not found")
    else serialize doc).


(** [[to_obj_id(i.menu_item_id) for i in payload.items]] *)
Fixpoint parse_ids (ids : list string) : result (list ObjectId) :=
  match ids with
  | [] => Ok []
  | s :: rest =>
      o ← to_obj_id s;
      os ← parse_ids rest;
      Ok (o :: os)
  end.

(** [{str(d["_id"]): d for d in docs}] *)
Fixpoint index_by_id (docs : list dict) (acc : gmap string dict) : result (gmap string dict) :=
  match docs with
  | [] => Ok acc
  | d :: ds =>
      match d !! "_id" with
      | None => Raise (KeyError "_id")
      | Some v => index_by_id ds (<[py_str v := d]> acc)
      end
  end.

Definition map_is_empty (m : gmap string dict) : bool :=
  match map_to_list m with
  | [] => true
  | _ :: _ => false
  end.

(** [float(doc.get("price", 0))] *)
Definition menu_price (doc : dict) : result float :=
  py_float (default (VInt 0) (doc !! "price")).

(** [float(doc.get("price", 0)) * it.quantity] *)
Definition line_amount (doc : dict) (quantity : Z) : result float :=
  price ← menu_price doc;
  float_mul_int price quantity.

(** The loop over [payload.items]. *)
Fixpoint order_subtotal (menu_docs : gmap string dict) (items : list OrderItem.t)
    (subtotal : float) : result float :=
  match items with
  | [] => Ok subtotal
  | it :: rest =>
      let doc := menu_docs !! OrderItem.menu_item_id it in
      if falsy doc then Raise (HTTPException 400 "Menu item not found")
      else
        match doc with
        | None => Raise (HTTPException 400 "Menu item not found")
        | Some d =>
            line ← line_amount d (OrderItem.quantity it);
            order_subtotal menu_docs rest (subtotal + line)%float
        end
  end.

(** The batch fetch of the referenced menu items, keyed by identifier. *)
Definition fetch_menu_docs (payload : CreateOrder.t) (db : store) : result (gmap string dict) :=
  oids ← parse_ids (map OrderItem.menu_item_id (CreateOrder.items payload));
  index_by_id (find_id_in db "menuitem" oids) ∅.

(** The block under [# Compute totals]: everything [create_order] does
    before it looks at the restaurant. *)
Definition order_items_subtotal (payload : CreateOrder.t) (db : store) : result float :=
  menu_docs ← fetch_menu_docs payload db;
  if map_is_empty menu_docs then Raise (HTTPException 400 "Invalid items")
  else order_subtotal menu_docs (CreateOrder.items payload) 0%float.

(** [float(rest.get("delivery_fee", 0))] *)
Definition restaurant_fee (rest : dict) : result float :=
  py_float (default (VInt 0) (rest !! "delivery_fee")).

(** [create_order] up to the construction of the [Order]: it only reads
    the store. *)
Definition order_record (payload : CreateOrder.t) (db : store) : result Order.t :=
  subtotal ← order_items_subtotal payload db;
  rid ← to_obj_id (CreateOrder.restaurant_id payload);
  let rest := find_one_by_id db "restaurant" rid in
  if falsy rest then Raise (HTTPException 404 "Restaurant not found")
  else
    match rest with
    | None => Raise (HTTPException 404 "Restaurant not found")
    | Some r =>
        delivery_fee ← restaurant_fee r;
        let total := round2 (subtotal + delivery_fee)%float in
        Order.validate validate_email
          {| Order.restaurant_id := CreateOrder.restaurant_id payload;
             Order.customer_id := None;
             Order.customer_name := Some (CreateOrder.customer_name payload);
             Order.customer_address := Some (CreateOrder.customer_address payload);
             Order.customer_email := CreateOrder.customer_email payload;
             Order.items := CreateOrder.items payload;
             Order.subtotal := round2 subtotal;
             Order.delivery_fee := delivery_fee;
             Order.total := total;
             Order.status := "pending" |}
    end.

Definition order_response (order_id : string) (total : float) : dict :=
  <["id" := VStr order_id]>
  (<["status" := VStr "pending"]>
  (<["total" := VFloat total]> ∅)).

(** [POST /orders] *)
Definition create_order (payload : CreateOrder.t) : handler dict :=
  do order_doc <- read (order_record payload);
  do order_id <- insert_document "order" (Order.dump order_doc);
  hret (order_response order_id (Order.total order_doc)).

(** [GET /] *)
Definition read_root : dict := {[ "message" := VStr "Food Delivery Backend Ready" ]}.

(** Taken as a parameter: [get_documents] of the data-access module
    [database.py], which is not among the sources.  It is given the name of
    a collection and an optional limit, reads the store and returns the
    documents or raises. *)
Variable get_documents : string → option Z → store → result (list dict).

(** [GET /restaurants] *)
Definition list_restaurants : handler (list (option dict)) :=
  read (λ db,
    docs ← get_documents "restaurant" None db;
    serialize_all docs).


(** What [test_database] sees of the global [db] when it is not [None]: its
    [name] attribute when it has one, and what [list_collection_names()]
    does, which is to return names or to raise an exception [e], kept as
    the text [str(e)]. *)
Inductive listing : Type :=
  | Names (names : list string)
  | Fails (message : string).

Record probe : Type := Probe {
  probe_name : option string;
  probe_collections : listing
}.



(** ** Sample data for the concrete checks *)

Definition sample_repr_float (f : float) : string := "".
Definition sample_repr_container (v : value) : string := "".
Definition sample_float_of_str (s : string) : option float := None.
Definition sample_validate_email (s : string) : option string := Some s.

(** The store after one seeding of an empty store whose counter is 0. *)
Definition seeded_store : store := fst (seed_store (empty_store 0)).

Definition pasta_palace_id : string := "000000000000000000000000".
Definition margherita_id : string := "000000000000000000000002".
Definition fettuccine_id : string := "000000000000000000000003".
Definition absent_id : string := "00000000000000000000000f".

Definition sample_payload (rid : string) (items : list OrderItem.t) : CreateOrder.t :=
  {| CreateOrder.restaurant_id := rid;
     CreateOrder.items := items;
     CreateOrder.customer_name := "Ada";
     CreateOrder.customer_address := "1 Main Street";
     CreateOrder.customer_email := None |}.

(** Two Margherita pizzas and one Fettuccine Alfredo from Pasta Palace. *)
Definition sample_order : CreateOrder.t :=
  sample_payload pasta_palace_id
    [OrderItem.Make margherita_id 2; OrderItem.Make fettuccine_id 1].

(** A malformed item identifier together with a restaurant that is not there. *)
Definition malformed_item_order : CreateOrder.t :=
  sample_payload absent_id [OrderItem.Make "not-an-id" 1].


(** An item that resolves, then one that does not. *)
Definition partial_miss_order : CreateOrder.t :=
  sample_payload pasta_palace_id
    [OrderItem.Make margherita_id 2; OrderItem.Make absent_id 1].

(** The same, the first quantity being too large for a float. *)
Definition huge_quantity_order : CreateOrder.t :=
  sample_payload pasta_palace_id
    [OrderItem.Make margherita_id (10 ^ 400); OrderItem.Make absent_id 1].

(** A menu item stored without a price, in a store that has Pasta Palace. *)
Definition unpriced_id : string := "000000000000000000000006".



Definition unidentified_record : dict := {[ "name" := VStr "Pasta Palace" ]}.

Definition identified_record : dict :=
  <["_id" := VObjectId (OID "000000000000000000000000")]> unidentified_record.

(** Reading one field of a document that may be absent, and of the
    document a handler answers with. *)
Definition field (k : string) (doc : option dict) : option value :=
  match doc with
  | Some d => d !! k
  | None => None
  end.

Definition answer_field (k : string) (r : result dict) : option value :=
  match r with
  | Ok d => d !! k
  | Raise _ => None
  end.

Definition is_Some_b {A} (o : option A) : bool :=
  match o with
  | Some _ => true
  | None => false
  end.

Definition is_Ok {A} (r : result A) : bool :=
  match r with
  | Ok _ => true
  | Raise _ => false
  end.


(** More sample data: a store seeded when the counter stood at 10, whose
    identifiers have letters among their digits. *)
Definition late_seeded_store : store := fst (seed_store (empty_store 10)).

Definition uppercase_order : CreateOrder.t :=
  sample_payload "00000000000000000000000a" [OrderItem.Make "00000000000000000000000C" 1].

Definition sample_get_documents (name : string) (limit : option Z) (db : store)
    : result (list dict) :=
  Ok match limit with
     | Some n => take (Z.to_nat n) (collection db name)
     | None => collection db name
     end.

(** A restaurant created with [delivery_fee=None], and one stored without
    the field. *)
Definition null_fee_restaurant : Restaurant.t :=
  {| Restaurant.name := "Fee Free";
     Restaurant.description := None;
     Restaurant.cuisine := None;
     Restaurant.image_url := None;
     Restaurant.rating := Some 4.5%float;
     Restaurant.delivery_fee := None;
     Restaurant.eta_minutes := Some 30 |}.

Definition null_fee_store : store :=
  fst (create_restaurant null_fee_restaurant seeded_store).


Definition seventh_id_order : CreateOrder.t :=
  sample_payload unpriced_id [OrderItem.Make margherita_id 1].

Definition strict_validate_email (s : string) : option string :=
  if String.eqb s "ada@example.com" then Some s else None.

Definition bad_email_order : CreateOrder.t :=
  {| CreateOrder.restaurant_id := pasta_palace_id;
     CreateOrder.items := [OrderItem.Make margherita_id 1];
     CreateOrder.customer_name := "Ada";
     CreateOrder.customer_address := "1 Main Street";
     CreateOrder.customer_email := Some "not an address" |}.

Definition sample_probe : probe :=
  {| probe_name := Some "fooddelivery";
     probe_collections :=
       Names ["a"; "b"; "c"; "d"; "e"; "f"; "g"; "h"; "i"; "j"; "k"; "l"] |}.

(** What an entry of a listing is to the stored document it comes from. *)
Definition serialized_from (d : dict) (r : option dict) : Prop :=
  ∃ (v : value) (d' : dict),
    d !! "_id" = Some v
    ∧ r = Some d'
    ∧ d' !! "_id" = None
    ∧ d' !! "id" = Some (VStr (py_str v))
    ∧ ∀ k : string, k ≠ "_id" → k ≠ "id" → d' !! k = d !! k.

(** ** Properties *)

Lemma dict_is_empty_true (d : dict) : dict_is_empty d = true ↔ d = ∅.
Proof.
  unfold dict_is_empty. rewrite <- (map_to_list_empty_iff d).
  destruct (map_to_list d); split; intros; congruence.
Qed.

Lemma dict_is_empty_false (d : dict) k v : d !! k = Some v → dict_is_empty d = false.
Proof.
  intros Hk. destruct (dict_is_empty d) eqn:E; [|done].
  apply dict_is_empty_true in E. subst d. by rewrite lookup_empty in Hk.
Qed.



(** C6. [serialize] returns an absent or empty record as it is; on a record
    that has the internal field [_id] it removes that field, sets [id] to
    the string form of the removed identifier, and keeps every other field. *)
Theorem serialize_replaces_id :
  serialize None = Ok None
  ∧ serialize (Some ∅) = Ok (Some ∅)
  ∧ ∀ (d : dict) (v : value), d !! "_id" = Some v →
      ∃ d' : dict,
        serialize (Some d) = Ok (Some d')
        ∧ d' !! "_id" = None
        ∧ d' !! "id" = Some (VStr (py_str v))
        ∧ ∀ k : string, k ≠ "_id" → k ≠ "id" → d' !! k = d !! k.
Proof.
  split; [reflexivity|]. split; [reflexivity|].
  intros d v Hid. exists (<["id" := VStr (py_str v)]> (delete "_id" d)).
  split.
  - unfold serialize. cbn [falsy]. rewrite (dict_is_empty_false d "_id" v Hid).
    by rewrite Hid.
  - split; [|split].
    + rewrite lookup_insert_ne by done. apply lookup_delete_eq.
    + apply lookup_insert_eq.
    + intros k Hk1 Hk2. rewrite lookup_insert_ne by done.
      by rewrite lookup_delete_ne.
Qed.

(** C9. On a non-empty record without [_id] the pop raises [KeyError]:
    [serialize] is not the identity there. *)
Theorem serialize_without_id (d : dict) :
  dict_is_empty d = false → d !! "_id" = None →
  serialize (Some d) = Raise (KeyError "_id")
  ∧ serialize (Some d) ≠ Ok (Some d).
Proof.
  intros Hne Hid. assert (serialize (Some d) = Raise (KeyError "_id")) as ->.
  { unfold serialize. cbn [falsy]. by rewrite Hne, Hid. }
  split; [done|discriminate].
Qed.

Lemma filter_none {A} (f : A → bool) (l : list A) :
  (∀ x, In x l → f x = false) → List.filter f l = [].
Proof.
  induction l as [|a l IH]; intros H; [done|]. cbn.
  rewrite (H a) by (by left). apply IH. intros x Hx. apply H. by right.
Qed.





(** C4. An order with no items is refused with 400 "Invalid items" and
    the store is left as it was. *)
Theorem create_order_empty_items (payload : CreateOrder.t) (db : store) :
  CreateOrder.items payload = [] →
  create_order payload db = (db, Raise (HTTPException 400 "Invalid items")).
Proof.
  intros Hitems.
  assert (find_id_in db "menuitem" [] = []) as Hfind
    by (by apply filter_none).
  unfold create_order, hbind, read, order_record, order_items_subtotal, fetch_menu_docs.
  rewrite Hitems. cbn. by rewrite Hfind.
Qed.

(** *** Seeding *)

Lemma collection_insert_same name data db :
  collection (fst (create_document name data db)) name
  = (collection db name ++ [<["_id" := VObjectId (fresh_oid db)]> data])%list.
Proof. unfold create_document, collection. cbn. by rewrite lookup_insert_eq. Qed.

Lemma collection_insert_other name name' data db :
  name ≠ name' →
  collection (fst (create_document name data db)) name' = collection db name'.
Proof.
  intros Hne. unfold create_document, collection. cbn. by rewrite lookup_insert_ne.
Qed.

Lemma hbind_ok {A B} (m : handler A) (k : A → handler B) db db' a :
  m db = (db', Ok a) → hbind m k db = k a db'.
Proof. intros H. unfold hbind. by rewrite H. Qed.

Lemma create_restaurant_valid r db :
  Restaurant.validate r = Ok r →
  create_restaurant r db
  = (fst (create_document "restaurant" (Restaurant.dump r) db),
     Ok (snd (create_document "restaurant" (Restaurant.dump r) db))).
Proof.
  intros H. unfold create_restaurant, hbind, lift, insert_document. by rewrite H.
Qed.

Lemma create_menuitem_valid m db :
  MenuItem.validate m = Ok m →
  create_menuitem m db
  = (fst (create_document "menuitem" (MenuItem.dump m) db),
     Ok (snd (create_document "menuitem" (MenuItem.dump m) db))).
Proof.
  intros H. unfold create_menuitem, hbind, lift, insert_document. by rewrite H.
Qed.

(** On a store without restaurants the seeding inserts two restaurants and
    four menu items. *)
Lemma seed_store_fresh db :
  collection db "restaurant" = [] →
  ∃ db' r1 r2 m1 m2 m3 m4,
    seed_store db = (db', Ok ok_response)
    ∧ collection db' "restaurant" = [r1; r2]
    ∧ collection db' "menuitem" = (collection db "menuitem" ++ [m1; m2; m3; m4])%list.
Proof.
  intros Hempty. unfold seed_store, count_documents. rewrite Hempty.
  cbn [length Z.of_nat Z.eqb].
  do 2 (erewrite hbind_ok by (by apply create_restaurant_valid)).
  do 4 (erewrite hbind_ok by (by apply create_menuitem_valid)).
  unfold hret. do 7 eexists. split; [reflexivity|].
  split.
  - rewrite !collection_insert_other by done.
    rewrite !collection_insert_same. rewrite Hempty. reflexivity.
  - rewrite !collection_insert_same.
    rewrite !collection_insert_other by done.
    rewrite <- !app_assoc. reflexivity.
Qed.

(** On a store that has a restaurant the seeding does nothing. *)
Lemma seed_store_noop db :
  collection db "restaurant" ≠ [] → seed_store db = (db, Ok ok_response).
Proof.
  intros Hne. unfold seed_store, count_documents.
  destruct (collection db "restaurant"); [done|]. reflexivity.
Qed.

(** The seeding is idempotent on every store. *)
Lemma seed_store_idempotent db :
  seed_store (fst (seed_store db)) = (fst (seed_store db), Ok ok_response).
Proof.
  destruct (collection db "restaurant") as [|r rs] eqn:E.
  - destruct (seed_store_fresh db E) as (db' & r1 & r2 & ? & ? & ? & ? & -> & Hr & _).
    cbn [fst]. apply seed_store_noop. by rewrite Hr.
  - rewrite (seed_store_noop db) by (by rewrite E). cbn [fst].
    apply seed_store_noop. by rewrite E.
Qed.

(** C5. Seeding an empty store twice leaves exactly two restaurants and
    four menu items: the second run finds the restaurant collection
    non-empty and returns the store as it is. *)
Theorem seed_twice (n : N) :
  ∃ st : store,
    seed_sample_data (Some (empty_store n)) = (Some st, Ok ok_response)
    ∧ seed_sample_data (Some st) = (Some st, Ok ok_response)
    ∧ length (collection st "restaurant") = 2%nat
    ∧ length (collection st "menuitem") = 4%nat.
Proof.
  destruct (seed_store_fresh (empty_store n))
    as (st & r1 & r2 & m1 & m2 & m3 & m4 & Hrun & Hr & Hm); [reflexivity|].
  exists st. unfold seed_sample_data. rewrite Hrun.
  rewrite seed_store_noop by (by rewrite Hr).
  rewrite Hr, Hm. repeat split.
Qed.

(** *** Identifiers *)

Lemma string_map_length f s : String.length (string_map f s) = String.length s.
Proof. induction s as [|c s IH]; cbn; congruence. Qed.

Lemma lower_hex c : is_hex c = true → is_hex (lower c) = true ∧ lower (lower c) = lower c.
Proof.
  destruct c as [[] [] [] [] [] [] [] []]; vm_compute; intros H;
    first [discriminate H | split; reflexivity].
Qed.

Lemma string_map_lower_hex s :
  string_forallb is_hex s = true →
  string_forallb is_hex (string_map lower s) = true
  ∧ string_map lower (string_map lower s) = string_map lower s.
Proof.
  induction s as [|c s IH]; cbn; [done|].
  intros [Hc Hs]%andb_prop. destruct (lower_hex c Hc) as [H1 H2].
  destruct (IH Hs) as [H3 H4]. rewrite H1, H2, H3, H4. done.
Qed.

(** An identifier that [to_obj_id] produced prints as a string that parses
    back to it. *)
Lemma to_obj_id_canonical s o :
  to_obj_id s = Ok o → to_obj_id (ObjectId_str o) = Ok o.
Proof.
  unfold to_obj_id, ObjectId_of_str.
  destruct (Nat.eqb (String.length s) 24) eqn:Hlen; cbn [andb]; [|done].
  destruct (string_forallb is_hex s) eqn:Hhex; [|done].
  intros [= <-]. cbn [ObjectId_str].
  destruct (string_map_lower_hex s Hhex) as [H1 H2].
  by rewrite string_map_length, Hlen, H1, H2.
Qed.

Lemma to_obj_id_error s e :
  to_obj_id s = Raise e → e = HTTPException 400 "Invalid id".
Proof. unfold to_obj_id. destruct (ObjectId_of_str s); congruence. Qed.

Lemma ObjectId_eqb_eq a b : ObjectId_eqb a b = true ↔ a = b.
Proof.
  destruct a as [x], b as [y]. unfold ObjectId_eqb. cbn.
  rewrite String.eqb_eq. split; congruence.
Qed.

Lemma has_id_spec o (d : dict) :
  has_id o d = true ↔ d !! "_id" = Some (VObjectId o).
Proof.
  unfold has_id. destruct (d !! "_id") as [v|]; [|done].
  destruct v; try done. rewrite ObjectId_eqb_eq. split; congruence.
Qed.

Lemma id_in_spec oids (d : dict) :
  id_in oids d = true ↔ ∃ o, In o oids ∧ d !! "_id" = Some (VObjectId o).
Proof.
  unfold id_in. rewrite existsb_exists.
  split; intros (o & Ho & H); exists o; split; try done; by apply has_id_spec.
Qed.

Lemma find_one_by_id_Some db name o d :
  find_one_by_id db name o = Some d →
  In d (collection db name) ∧ d !! "_id" = Some (VObjectId o).
Proof.
  unfold find_one_by_id. intros [H1 H2]%find_some. by apply has_id_spec in H2.
Qed.

Lemma find_one_by_id_None db name o d :
  find_one_by_id db name o = None →
  In d (collection db name) → d !! "_id" ≠ Some (VObjectId o).
Proof.
  unfold find_one_by_id. intros Hnone Hd Hid.
  apply has_id_spec in Hid. pose proof (find_none _ _ Hnone d Hd). congruence.
Qed.

Lemma parse_ids_Ok ids os :
  parse_ids ids = Ok os → Forall2 (λ s o, to_obj_id s = Ok o) ids os.
Proof.
  revert os. induction ids as [|s ids IH]; intros os; cbn [parse_ids].
  - intros [= <-]. constructor.
  - destruct (to_obj_id s) as [o|e] eqn:E1; cbn; [|done].
    destruct (parse_ids ids) as [os'|e] eqn:E2; cbn; [|done].
    intros [= <-]. constructor; [done|]. by apply IH.
Qed.

Lemma parse_ids_error ids e :
  parse_ids ids = Raise e → e = HTTPException 400 "Invalid id".
Proof.
  induction ids as [|s ids IH]; cbn [parse_ids]; [done|].
  destruct (to_obj_id s) as [o|e'] eqn:E1; cbn.
  - destruct (parse_ids ids) as [os'|e'] eqn:E2; cbn; [done|].
    intros [= <-]. by apply IH.
  - intros [= <-]. by apply to_obj_id_error in E1.
Qed.


(** *** The batch fetch *)

Lemma index_by_id_total (docs : list dict) acc :
  (∀ d, In d docs → is_Some (d !! "_id")) → ∃ m, index_by_id docs acc = Ok m.
Proof.
  revert acc. induction docs as [|d ds IH]; intros acc Hids; cbn [index_by_id].
  - by eexists.
  - destruct (Hids d) as [v ->]; [by left|]. apply IH.
    intros d' Hd'. apply Hids. by right.
Qed.

Lemma index_by_id_lookup (docs : list dict) acc m k d :
  index_by_id docs acc = Ok m → m !! k = Some d →
  acc !! k = Some d ∨ (In d docs ∧ ∃ v, d !! "_id" = Some v ∧ py_str v = k).
Proof.
  revert acc. induction docs as [|d0 ds IH]; intros acc; cbn [index_by_id].
  - intros [= <-] Hk. by left.
  - destruct (d0 !! "_id") as [v|] eqn:Hv; [|done].
    intros Hm Hk. destruct (IH _ Hm Hk) as [Hacc|(Hin & Hrest)].
    + destruct (decide (py_str v = k)) as [<-|Hne].
      * rewrite lookup_insert_eq in Hacc. injection Hacc as <-.
        right. split; [by left|]. by exists v.
      * rewrite lookup_insert_ne in Hacc by done. by left.
    + right. split; [by right|done].
Qed.

Lemma index_by_id_covers (docs : list dict) acc m :
  index_by_id docs acc = Ok m →
  (∀ k, is_Some (acc !! k) → is_Some (m !! k))
  ∧ (∀ d v, In d docs → d !! "_id" = Some v → is_Some (m !! py_str v)).
Proof.
  revert acc. induction docs as [|d0 ds IH]; intros acc; cbn [index_by_id].
  - intros [= <-]. split; [done|]. intros d v [].
  - destruct (d0 !! "_id") as [v0|] eqn:Hv0; [|done].
    intros Hm. destruct (IH _ Hm) as [Hacc Hds]. split.
    + intros k Hk. apply Hacc.
      destruct (decide (py_str v0 = k)) as [<-|Hne].
      * rewrite lookup_insert_eq. by eexists.
      * by rewrite lookup_insert_ne.
    + intros d v [<-|Hin] Hv.
      * rewrite Hv0 in Hv. injection Hv as <-.
        apply Hacc. rewrite lookup_insert_eq. by eexists.
      * by apply (Hds d).
Qed.

Lemma Forall2_In_r {A B} (P : A → B → Prop) l k b :
  Forall2 P l k → In b k → ∃ a, In a l ∧ P a b.
Proof.
  induction 1 as [|a b' l k Hab _ IH]; [done|].
  intros [<-|Hin].
  - exists a. split; [by left|done].
  - destruct (IH Hin) as (a' & Ha' & HP). exists a'. split; [by right|done].
Qed.

Lemma find_id_in_has_id db name oids d :
  In d (find_id_in db name oids) →
  In d (collection db name) ∧ ∃ o, In o oids ∧ d !! "_id" = Some (VObjectId o).
Proof.
  unfold find_id_in. rewrite filter_In, id_in_spec. done.
Qed.

(** The batch fetch either succeeds or stops at a malformed identifier. *)
Lemma fetch_menu_docs_cases payload db :
  (∃ m, fetch_menu_docs payload db = Ok m)
  ∨ fetch_menu_docs payload db = Raise (HTTPException 400 "Invalid id").
Proof.
  unfold fetch_menu_docs.
  destruct (parse_ids _) as [oids|e] eqn:E; cbn.
  - left. apply index_by_id_total. intros d Hd.
    apply find_id_in_has_id in Hd as (_ & o & _ & ->). by eexists.
  - right. by rewrite (parse_ids_error _ _ E).
Qed.

(** What the fetched dictionary holds under a key: a stored menu item whose
    identifier prints as the key; the key then parses to that identifier. *)
Lemma fetch_menu_docs_lookup payload db m k d :
  fetch_menu_docs payload db = Ok m → m !! k = Some d →
  In d (collection db "menuitem")
  ∧ ∃ o, d !! "_id" = Some (VObjectId o) ∧ ObjectId_str o = k ∧ to_obj_id k = Ok o.
Proof.
  unfold fetch_menu_docs.
  destruct (parse_ids _) as [oids|e] eqn:E; cbn; [|done].
  intros Hm Hk. destruct (index_by_id_lookup _ _ _ _ _ Hm Hk) as [Hk'|(Hin & v & Hv & Hstr)].
  { by rewrite lookup_empty in Hk'. }
  apply find_id_in_has_id in Hin as (Hcoll & o & Ho & Hid).
  split; [done|]. exists o. rewrite Hid in Hv. injection Hv as <-.
  cbn [py_str] in Hstr. split; [done|]. split; [done|].
  apply parse_ids_Ok in E.
  destruct (Forall2_In_r _ _ _ _ E Ho) as (s & _ & Hs).
  rewrite <- Hstr. by apply (to_obj_id_canonical s).
Qed.


(** An identifier that resolves to no stored menu item is not a key of the
    fetched dictionary. *)
Lemma fetch_menu_docs_miss payload db m k o :
  fetch_menu_docs payload db = Ok m →
  to_obj_id k = Ok o → find_one_by_id db "menuitem" o = None →
  m !! k = None.
Proof.
  intros Hm Ho Hnone. destruct (m !! k) as [d|] eqn:Hk; [|done]. exfalso.
  destruct (fetch_menu_docs_lookup _ _ _ _ _ Hm Hk) as (Hin & o' & Hid & _ & Ho').
  rewrite Ho in Ho'. injection Ho' as <-.
  by apply (find_one_by_id_None _ _ _ _ Hnone Hin).
Qed.

(** *** The loop over the items *)

Lemma order_subtotal_Ok m items acc s :
  order_subtotal m items acc = Ok s →
  ∃ lines : list (dict * float * float),
    Forall2 (λ it '(d, price, qty),
               m !! OrderItem.menu_item_id it = Some d
               ∧ menu_price d = Ok price
               ∧ float_of_int (OrderItem.quantity it) = Ok qty) items lines
    ∧ s = fold_left (λ a '(_, price, qty), (a + price * qty)%float) lines acc.
Proof.
  revert acc. induction items as [|it items IH]; intros acc; cbn [order_subtotal].
  - intros [= <-]. exists []. split; [constructor|done].
  - destruct (m !! OrderItem.menu_item_id it) as [d|] eqn:Hd; cbn [falsy]; [|done].
    destruct (dict_is_empty d); [done|].
    unfold line_amount, float_mul_int.
    destruct (menu_price d) as [price|e] eqn:Hp; cbn; [|done].
    destruct (float_of_int (OrderItem.quantity it)) as [qty|e] eqn:Hq; cbn; [|done].
    intros Hrest. destruct (IH _ Hrest) as (lines & Hlines & ->).
    exists ((d, price, qty) :: lines). split; [|done].
    constructor; [|done]. done.
Qed.

Lemma create_order_unfold payload db :
  create_order payload db
  = match order_record payload db with
    | Ok o =>
        (fst (create_document "order" (Order.dump o) db),
         Ok (order_response (snd (create_document "order" (Order.dump o) db))
               (Order.total o)))
    | Raise e => (db, Raise e)
    end.
Proof.
  unfold create_order, hbind, read, insert_document, hret.
  by destruct (order_record payload db).
Qed.

(** A refused order leaves the store as it was. *)
Lemma create_order_error_keeps_store payload db e :
  snd (create_order payload db) = Raise e → create_order payload db = (db, Raise e).
Proof.
  rewrite create_order_unfold. destruct (order_record payload db); cbn; [done|].
  by intros [= ->].
Qed.

Lemma Order_validate_Ok o o' :
  Order.validate validate_email o = Ok o' →
  Order.subtotal o' = Order.subtotal o
  ∧ Order.delivery_fee o' = Order.delivery_fee o
  ∧ Order.total o' = Order.total o.
Proof.
  unfold Order.validate. destruct (Order.customer_email o) as [e|].
  - destruct (validate_email e); [|done]. by intros [= <-].
  - by intros [= <-].
Qed.

Lemma order_record_Ok payload db o :
  order_record payload db = Ok o →
  ∃ subtotal rid rest fee,
    order_items_subtotal payload db = Ok subtotal
    ∧ to_obj_id (CreateOrder.restaurant_id payload) = Ok rid
    ∧ find_one_by_id db "restaurant" rid = Some rest
    ∧ restaurant_fee rest = Ok fee
    ∧ Order.subtotal o = round2 subtotal
    ∧ Order.delivery_fee o = fee
    ∧ Order.total o = round2 (subtotal + fee)%float.
Proof.
  unfold order_record.
  destruct (order_items_subtotal payload db) as [subtotal|e] eqn:Hs; cbn; [|done].
  destruct (to_obj_id _) as [rid|e] eqn:Hrid; cbn; [|done].
  destruct (find_one_by_id db "restaurant" rid) as [rest|] eqn:Hrest; cbn [falsy]; [|done].
  destruct (dict_is_empty rest); [done|].
  destruct (restaurant_fee rest) as [fee|e] eqn:Hfee; cbn; [|done].
  intros (H1 & H2 & H3)%Order_validate_Ok. cbn in H1, H2, H3.
  by exists subtotal, rid, rest, fee.
Qed.



(** C8. In the seeded store Pasta Palace charges 2.99 for delivery, the
    Margherita Pizza costs 12.99 and the Fettuccine Alfredo 14.50; the
    order of two pizzas and one fettuccine is accepted, the one order then
    stored has subtotal 40.48 and total 43.47, and 43.47 is the total
    returned. *)
Theorem seeded_order_scenario :
  let pasta := find_one_by_id seeded_store "restaurant" (OID pasta_palace_id) in
  let pizza := find_one_by_id seeded_store "menuitem" (OID margherita_id) in
  let alfredo := find_one_by_id seeded_store "menuitem" (OID fettuccine_id) in
  let answer := create_order sample_order seeded_store in
  let stored := collection (fst answer) "order" in
  field "name" pasta = Some (VStr "Pasta Palace")
  ∧ field "delivery_fee" pasta = Some (VFloat 2.99)
  ∧ field "name" pizza = Some (VStr "Margherita Pizza")
  ∧ field "price" pizza = Some (VFloat 12.99)
  ∧ field "name" alfredo = Some (VStr "Fettuccine Alfredo")
  ∧ field "price" alfredo = Some (VFloat 14.5)
  ∧ is_Ok (snd answer) = true
  ∧ answer_field "total" (snd answer) = Some (VFloat 43.47)
  ∧ answer_field "status" (snd answer) = Some (VStr "pending")
  ∧ length stored = 1%nat
  ∧ field "subtotal" (head stored) = Some (VFloat 40.48)
  ∧ field "delivery_fee" (head stored) = Some (VFloat 2.99)
  ∧ field "total" (head stored) = Some (VFloat 43.47).
Proof.
  cbv zeta. repeat split; vm_compute; reflexivity.
Qed.

(** *** Refused orders *)

Lemma order_items_error payload db e :
  order_items_subtotal payload db = Raise e → create_order payload db = (db, Raise e).
Proof.
  intros H. rewrite create_order_unfold. unfold order_record. by rewrite H.
Qed.

Lemma fetch_error payload db e :
  fetch_menu_docs payload db = Raise e → create_order payload db = (db, Raise e).
Proof.
  intros H. apply order_items_error. unfold order_items_subtotal. by rewrite H.
Qed.


Lemma order_subtotal_stops m pre it post acc :
  m !! OrderItem.menu_item_id it = None →
  ∃ e, order_subtotal m (pre ++ it :: post) acc = Raise e.
Proof.
  intros Hmiss. revert acc.
  induction pre as [|it' pre IH]; intros acc; cbn [app order_subtotal].
  - rewrite Hmiss. cbn. by eexists.
  - destruct (falsy (m !! OrderItem.menu_item_id it')); [by eexists|].
    destruct (m !! OrderItem.menu_item_id it') as [d|]; [|by eexists].
    destruct (line_amount d (OrderItem.quantity it')) as [a|e]; cbn; [|by eexists].
    apply IH.
Qed.

Lemma order_subtotal_not_found m pre it post acc :
  m !! OrderItem.menu_item_id it = None →
  (∀ it' d, In it' pre → m !! OrderItem.menu_item_id it' = Some d →
     is_Ok (line_amount d (OrderItem.quantity it')) = true) →
  order_subtotal m (pre ++ it :: post) acc
  = Raise (HTTPException 400 "Menu item not found").
Proof.
  intros Hmiss. revert acc.
  induction pre as [|it' pre IH]; intros acc Hpre; cbn [app order_subtotal].
  - by rewrite Hmiss.
  - destruct (m !! OrderItem.menu_item_id it') as [d|] eqn:Hd; cbn [falsy]; [|done].
    destruct (dict_is_empty d); [done|].
    pose proof (Hpre it' d (or_introl eq_refl) Hd) as Hline.
    destruct (line_amount d (OrderItem.quantity it')) as [a|e]; cbn; [|done].
    apply IH. intros it'' d' Hin. apply Hpre. by right.
Qed.

(** C3, as the code has it.  When a submitted identifier is well formed and
    no menu item has it, the order is refused and the store is unchanged;
    the refusal is a 400 provided the line of every item submitted before
    it, where that item resolves, can be computed. *)
Theorem partial_miss_refused (payload : CreateOrder.t) (db : store)
    (pre post : list OrderItem.t) (it : OrderItem.t) (o : ObjectId) :
  CreateOrder.items payload = (pre ++ it :: post)%list →
  to_obj_id (OrderItem.menu_item_id it) = Ok o →
  find_one_by_id db "menuitem" o = None →
  (∃ e, create_order payload db = (db, Raise e))
  ∧ ((∀ it' d, In it' pre → In d (collection db "menuitem") →
        (∃ o', to_obj_id (OrderItem.menu_item_id it') = Ok o'
               ∧ d !! "_id" = Some (VObjectId o')) →
        is_Ok (line_amount d (OrderItem.quantity it')) = true) →
     ∃ detail, create_order payload db = (db, Raise (HTTPException 400 detail))).
Proof.
  intros Hitems Ho Hnone.
  destruct (fetch_menu_docs_cases payload db) as [[m Hm]|Hbad].
  - pose proof (fetch_menu_docs_miss _ _ _ _ _ Hm Ho Hnone) as Hmiss.
    assert (∀ e, match map_is_empty m with
                 | true => Raise (HTTPException 400 "Invalid items")
                 | false => order_subtotal m (pre ++ it :: post) 0%float
                 end = Raise e → create_order payload db = (db, Raise e)) as Hstep.
    { intros e He. apply order_items_error. unfold order_items_subtotal.
      rewrite Hm. cbn. by rewrite Hitems. }
    split.
    + destruct (map_is_empty m) eqn:Hempty.
      * eexists. by apply Hstep.
      * destruct (order_subtotal_stops m pre it post 0%float Hmiss) as [e He].
        exists e. by apply Hstep.
    + intros Hpre. destruct (map_is_empty m) eqn:Hempty.
      * eexists. by apply Hstep.
      * eexists. apply Hstep. apply order_subtotal_not_found; [done|].
        intros it' d Hin Hd.
        destruct (fetch_menu_docs_lookup _ _ _ _ _ Hm Hd) as (Hcoll & o' & Hid & _ & Hparse).
        apply Hpre; [done|done|]. by exists o'.
  - split; eexists; by apply fetch_error.
Qed.

(** *** Accepted orders *)



(** *** Checks by evaluation *)


Lemma lines_check db (pre : list OrderItem.t) :
  forallb (λ it', forallb (λ d, is_Ok (line_amount d (OrderItem.quantity it')))
                    (collection db "menuitem")) pre = true →
  ∀ it' d, In it' pre → In d (collection db "menuitem") →
    is_Ok (line_amount d (OrderItem.quantity it')) = true.
Proof.
  intros Hall it' d Hit Hd.
  pose proof (proj1 (forallb_forall _ _) Hall it' Hit) as Hdocs. cbn beta in Hdocs.
  exact (proj1 (forallb_forall _ _) Hdocs d Hd).
Qed.

(** ** Further properties of the handlers *)



(** X3. [serialize] cannot be applied twice: what it returns for a record
    with [_id] has no [_id] any more, and serializing that raises
    [KeyError]. *)
Theorem serialize_twice_fails (d : dict) (v : value) :
  d !! "_id" = Some v →
  ∃ d' : dict,
    serialize (Some d) = Ok (Some d')
    ∧ serialize (Some d') = Raise (KeyError "_id").
Proof.
  intros Hid. exists (<["id" := VStr (py_str v)]> (delete "_id" d)). split.
  - unfold serialize. cbn [falsy]. rewrite (dict_is_empty_false d "_id" v Hid).
    by rewrite Hid.
  - unfold serialize. cbn [falsy].
    rewrite (dict_is_empty_false _ "id" (VStr (py_str v))) by apply lookup_insert_eq.
    rewrite lookup_insert_ne by done. by rewrite lookup_delete_eq.
Qed.

(** X4. A refused order leaves no trace: whatever [create_order] raises,
    the store it returns is the store it was given. *)
Theorem create_order_refusal_keeps_store (payload : CreateOrder.t) (db : store) (e : error) :
  snd (create_order payload db) = Raise e →
  fst (create_order payload db) = db.
Proof.
  intros H. by rewrite (create_order_error_keeps_store _ _ _ H).
Qed.

Lemma order_record_fields payload db o :
  order_record payload db = Ok o →
  Order.restaurant_id o = CreateOrder.restaurant_id payload
  ∧ Order.customer_id o = None
  ∧ Order.items o = CreateOrder.items payload
  ∧ Order.status o = "pending".
Proof.
  unfold order_record.
  destruct (order_items_subtotal payload db) as [subtotal|e]; cbn; [|done].
  destruct (to_obj_id _) as [rid|e]; cbn; [|done].
  destruct (find_one_by_id db "restaurant" rid) as [rest|]; cbn [falsy]; [|done].
  destruct (dict_is_empty rest); [done|].
  destruct (restaurant_fee rest) as [fee|e]; cbn; [|done].
  unfold Order.validate. cbn.
  destruct (CreateOrder.customer_email payload) as [e|].
  - destruct (validate_email e); [|done]. by intros [= <-].
  - by intros [= <-].
Qed.

(** X5. An accepted order adds exactly one document, at the end of the
    [order] collection, and touches no other collection; the document has
    status [pending], the restaurant and the items as submitted, and the
    identifier whose text is the [id] of the answer. *)
Theorem create_order_effect (payload : CreateOrder.t) (db : store) (resp : dict) :
  snd (create_order payload db) = Ok resp →
  ∃ (doc : dict) (o : ObjectId),
    collection (fst (create_order payload db)) "order"
      = (collection db "order" ++ [doc])%list
    ∧ (∀ name, name ≠ "order" →
         collection (fst (create_order payload db)) name = collection db name)
    ∧ doc !! "_id" = Some (VObjectId o)
    ∧ resp !! "id" = Some (VStr (ObjectId_str o))
    ∧ resp !! "status" = Some (VStr "pending")
    ∧ doc !! "status" = Some (VStr "pending")
    ∧ doc !! "restaurant_id" = Some (VStr (CreateOrder.restaurant_id payload))
    ∧ doc !! "customer_id" = Some VNone
    ∧ doc !! "items" = Some (VList (map OrderItem.dump (CreateOrder.items payload))).
Proof.
  rewrite create_order_unfold.
  destruct (order_record payload db) as [o|e] eqn:Ho; cbn [fst snd]; [|done].
  intros [= <-].
  destruct (order_record_fields _ _ _ Ho) as (Hrid & Hcid & Hitems & Hstatus).
  exists (<["_id" := VObjectId (fresh_oid db)]> (Order.dump o)), (fresh_oid db).
  split; [apply collection_insert_same|].
  split; [intros name Hname; by apply collection_insert_other|].
  split; [apply lookup_insert_eq|].
  unfold order_response, Order.dump.
  rewrite Hrid, Hcid, Hitems, Hstatus.
  repeat split; by simplify_map_eq.
Qed.

Lemma float_of_int_no_http n c detail : float_of_int n ≠ Raise (HTTPException c detail).
Proof. unfold float_of_int. by destruct (binary_normalize _ _ _ _ _). Qed.

Lemma py_float_no_http v c detail : py_float v ≠ Raise (HTTPException c detail).
Proof.
  destruct v; cbn; try done.
  - apply float_of_int_no_http.
  - by destruct (float_of_str s).
Qed.

Lemma line_amount_no_http d q c detail : line_amount d q ≠ Raise (HTTPException c detail).
Proof.
  unfold line_amount, menu_price, float_mul_int.
  destruct (py_float _) as [price|e] eqn:Hp; cbn.
  - destruct (float_of_int q) as [fq|e] eqn:Hq; cbn; [done|].
    intros [= ->]. by apply float_of_int_no_http in Hq.
  - intros [= ->]. by apply py_float_no_http in Hp.
Qed.

Lemma order_subtotal_http m items acc c detail :
  order_subtotal m items acc = Raise (HTTPException c detail) →
  c = 400 ∧ detail = "Menu item not found".
Proof.
  revert acc. induction items as [|it items IH]; intros acc; cbn [order_subtotal]; [done|].
  destruct (m !! OrderItem.menu_item_id it) as [d|]; cbn [falsy]; [|by intros [= <- <-]].
  destruct (dict_is_empty d); [by intros [= <- <-]|].
  destruct (line_amount d (OrderItem.quantity it)) as [a|e] eqn:Hl; cbn; [apply IH|].
  intros [= ->]. by apply line_amount_no_http in Hl.
Qed.

(** X6. The only HTTP errors [POST /orders] raises are the 400s "Invalid
    id", "Invalid items" and "Menu item not found" and the 404 "Restaurant
    not found". *)
Theorem create_order_http_errors (payload : CreateOrder.t) (db : store)
    (c : Z) (detail : string) :
  snd (create_order payload db) = Raise (HTTPException c detail) →
  (c = 400 ∧ (detail = "Invalid id" ∨ detail = "Invalid items"
              ∨ detail = "Menu item not found"))
  ∨ (c = 404 ∧ detail = "Restaurant not found").
Proof.
  rewrite create_order_unfold.
  destruct (order_record payload db) as [o|e] eqn:Ho; cbn [snd]; [done|].
  intros [= ->]. revert Ho. unfold order_record.
  destruct (order_items_subtotal payload db) as [subtotal|e] eqn:Hs; cbn.
  - destruct (to_obj_id _) as [rid|e] eqn:Hrid; cbn.
    + destruct (find_one_by_id db "restaurant" rid) as [rest|]; cbn [falsy];
        [|intros [= <- <-]; by right].
      destruct (dict_is_empty rest); [intros [= <- <-]; by right|].
      destruct (restaurant_fee rest) as [fee|e] eqn:Hfee; cbn.
      * unfold Order.validate. cbn.
        destruct (CreateOrder.customer_email payload) as [a|]; [|done].
        by destruct (validate_email a).
      * intros [= ->]. by apply py_float_no_http in Hfee.
    + intros [= ->]. apply to_obj_id_error in Hrid as [= -> ->]. left. auto.
  - intros [= ->]. revert Hs. unfold order_items_subtotal.
    destruct (fetch_menu_docs_cases payload db) as [[m ->]| ->]; cbn.
    + destruct (map_is_empty m); [intros [= <- <-]; left; auto|].
      intros [-> ->]%order_subtotal_http. left. auto.
    + intros [= <- <-]. left. auto.
Qed.


Lemma parse_ids_total ids :
  (∀ s, In s ids → ∃ o, to_obj_id s = Ok o) → ∃ os, parse_ids ids = Ok os.
Proof.
  induction ids as [|s ids IH]; intros Hall; cbn [parse_ids]; [by eexists|].
  destruct (Hall s) as [o ->]; [by left|]. cbn.
  destruct IH as [os ->]; [intros s' Hs'; apply Hall; by right|]. by eexists.
Qed.

(** X8. When every submitted identifier is well formed and none of them is
    the identifier of a stored menu item, the answer is 400 "Invalid
    items"; an empty list of items is the least case. *)
Theorem unresolved_items_refused (payload : CreateOrder.t) (db : store) :
  (∀ it, In it (CreateOrder.items payload) →
     ∃ o, to_obj_id (OrderItem.menu_item_id it) = Ok o
          ∧ find_one_by_id db "menuitem" o = None) →
  create_order payload db = (db, Raise (HTTPException 400 "Invalid items")).
Proof.
  intros Hnone. apply order_items_error.
  unfold order_items_subtotal, fetch_menu_docs.
  destruct (parse_ids_total (map OrderItem.menu_item_id (CreateOrder.items payload)))
    as [os Hos].
  { intros s (it & <- & Hit)%in_map_iff. destruct (Hnone it Hit) as (o & Ho & _). by exists o. }
  rewrite Hos. cbn.
  assert (find_id_in db "menuitem" os = []) as ->; [|done].
  apply filter_none. intros d Hd.
  destruct (id_in os d) eqn:Hin; [exfalso|done].
  apply id_in_spec in Hin as (o & Ho & Hid).
  apply parse_ids_Ok in Hos.
  destruct (Forall2_In_r _ _ _ _ Hos Ho) as (s & (it & <- & Hit)%in_map_iff & Hs).
  destruct (Hnone it Hit) as (o' & Ho' & Hmiss).
  rewrite Hs in Ho'. injection Ho' as <-.
  by apply (find_one_by_id_None _ _ _ _ Hmiss Hd).
Qed.

Lemma Forall2_In_l {A B} (P : A → B → Prop) l k a :
  Forall2 P l k → In a l → ∃ b, In b k ∧ P a b.
Proof.
  induction 1 as [|a' b l k Hab _ IH]; [done|].
  intros [<-|Hin].
  - exists b. split; [by left|done].
  - destruct (IH Hin) as (b' & Hb' & HP). exists b'. split; [by right|done].
Qed.

(** X9. The items are looked up under the text as submitted, the fetched
    documents are keyed by the canonical text of their identifier: an order
    with an identifier that is well formed but not in canonical lower-case
    form is never accepted, even when the item exists. *)
Theorem noncanonical_item_refused (payload : CreateOrder.t) (db : store)
    (it : OrderItem.t) (o : ObjectId) :
  In it (CreateOrder.items payload) →
  to_obj_id (OrderItem.menu_item_id it) = Ok o →
  ObjectId_str o ≠ OrderItem.menu_item_id it →
  ∃ e, create_order payload db = (db, Raise e).
Proof.
  intros Hin Ho Hne.
  destruct (snd (create_order payload db)) as [resp|e] eqn:Hres.
  - exfalso. rewrite create_order_unfold in Hres.
    destruct (order_record payload db) as [rec|e] eqn:Hrec; cbn [snd] in Hres; [|done].
    destruct (order_record_Ok _ _ _ Hrec) as (subtotal & _ & _ & _ & Hsub & _).
    unfold order_items_subtotal in Hsub.
    destruct (fetch_menu_docs payload db) as [m|e] eqn:Hm; cbn in Hsub; [|done].
    destruct (map_is_empty m); [done|].
    destruct (order_subtotal_Ok _ _ _ _ Hsub) as (lines & Hlines & _).
    destruct (Forall2_In_l _ _ _ _ Hlines Hin) as ([[d price] qty] & _ & Hd & _).
    destruct (fetch_menu_docs_lookup _ _ _ _ _ Hm Hd) as (_ & o' & _ & Hstr & Ho').
    rewrite Ho in Ho'. injection Ho' as <-. done.
  - exists e. by apply create_order_error_keeps_store.
Qed.


(** X11. Seeding is idempotent on every store, not only on an empty one:
    a second run returns the store the first run left. *)
Theorem seed_idempotent (db : store) :
  seed_sample_data (fst (seed_sample_data (Some db)))
  = (fst (seed_sample_data (Some db)), Ok ok_response).
Proof.
  unfold seed_sample_data at 2 3.
  pose proof (seed_store_idempotent db) as H.
  destruct (seed_store db) as [st r]. cbn [fst] in *.
  unfold seed_sample_data. by rewrite H.
Qed.

Lemma fresh_id_text name data db :
  snd (create_document name data db) = ObjectId_str (fresh_oid db).
Proof. reflexivity. Qed.

(** What the seeding does to a store without restaurants, in full. *)
Lemma seed_store_fresh_detail db :
  collection db "restaurant" = [] →
  ∃ db' r1 r2 m1 m2 m3 m4 o1 o2,
    seed_store db = (db', Ok ok_response)
    ∧ collection db' "restaurant" = [r1; r2]
    ∧ collection db' "menuitem" = (collection db "menuitem" ++ [m1; m2; m3; m4])%list
    ∧ (∀ name, name ≠ "restaurant" → name ≠ "menuitem" →
         collection db' name = collection db name)
    ∧ o1 = fresh_oid db
    ∧ r1 !! "_id" = Some (VObjectId o1)
    ∧ r2 !! "_id" = Some (VObjectId o2)
    ∧ r1 !! "name" = Some (VStr "Pasta Palace")
    ∧ r2 !! "name" = Some (VStr "Spice Route")
    ∧ m1 !! "restaurant_id" = Some (VStr (ObjectId_str o1))
    ∧ m2 !! "restaurant_id" = Some (VStr (ObjectId_str o1))
    ∧ m3 !! "restaurant_id" = Some (VStr (ObjectId_str o2))
    ∧ m4 !! "restaurant_id" = Some (VStr (ObjectId_str o2)).
Proof.
  intros Hempty. unfold seed_store, count_documents. rewrite Hempty.
  cbn [length Z.of_nat Z.eqb].
  do 2 (erewrite hbind_ok by (by apply create_restaurant_valid)).
  do 4 (erewrite hbind_ok by (by apply create_menuitem_valid)).
  unfold hret. rewrite !fresh_id_text.
  set (db1 := fst (create_document "restaurant" (Restaurant.dump sample_restaurant_1) db)).
  eexists _, _, _, _, _, _, _, (fresh_oid db), (fresh_oid db1).
  subst db1. split; [reflexivity|].
  split.
  { rewrite !collection_insert_other by done.
    rewrite !collection_insert_same. rewrite Hempty. reflexivity. }
  split.
  { rewrite !collection_insert_same.
    rewrite !collection_insert_other by done.
    rewrite <- !app_assoc. reflexivity. }
  split.
  { intros name Hn1 Hn2. by rewrite !collection_insert_other. }
  split; [reflexivity|].
  split; [apply lookup_insert_eq|]. split; [apply lookup_insert_eq|].
  unfold Restaurant.dump, MenuItem.dump, sample_item. cbn.
  repeat split; by simplify_map_eq.
Qed.

(** X12. The guard of the seeding looks at the restaurants only.  A store
    that has a restaurant is returned as it is, even without menu items; a
    store without restaurants gets two restaurants and four more menu
    items after the ones it has, and its other collections are kept. *)
Theorem seed_guard (db : store) :
  (collection db "restaurant" ≠ [] →
     seed_sample_data (Some db) = (Some db, Ok ok_response))
  ∧ (collection db "restaurant" = [] →
     ∃ st m1 m2 m3 m4,
       seed_sample_data (Some db) = (Some st, Ok ok_response)
       ∧ length (collection st "restaurant") = 2%nat
       ∧ collection st "menuitem" = (collection db "menuitem" ++ [m1; m2; m3; m4])%list
       ∧ ∀ name, name ≠ "restaurant" → name ≠ "menuitem" →
           collection st name = collection db name).
Proof.
  split; intros H; unfold seed_sample_data.
  - by rewrite seed_store_noop.
  - destruct (seed_store_fresh_detail db H)
      as (st & r1 & r2 & m1 & m2 & m3 & m4 & o1 & o2 & -> & Hr & Hm & Hother & _).
    exists st, m1, m2, m3, m4. rewrite Hr. done.
Qed.

(** X13. The seeded menu items point at the seeded restaurants: the first
    two carry, as [restaurant_id], the text of the identifier of Pasta
    Palace, the last two that of Spice Route. *)
Theorem seed_links_menu_to_restaurants (db : store) :
  collection db "restaurant" = [] →
  ∃ st r1 r2 m1 m2 m3 m4 o1 o2,
    seed_sample_data (Some db) = (Some st, Ok ok_response)
    ∧ collection st "restaurant" = [r1; r2]
    ∧ collection st "menuitem" = (collection db "menuitem" ++ [m1; m2; m3; m4])%list
    ∧ r1 !! "name" = Some (VStr "Pasta Palace")
    ∧ r1 !! "_id" = Some (VObjectId o1)
    ∧ r2 !! "name" = Some (VStr "Spice Route")
    ∧ r2 !! "_id" = Some (VObjectId o2)
    ∧ m1 !! "restaurant_id" = Some (VStr (ObjectId_str o1))
    ∧ m2 !! "restaurant_id" = Some (VStr (ObjectId_str o1))
    ∧ m3 !! "restaurant_id" = Some (VStr (ObjectId_str o2))
    ∧ m4 !! "restaurant_id" = Some (VStr (ObjectId_str o2)).
Proof.
  intros H. unfold seed_sample_data.
  destruct (seed_store_fresh_detail db H)
    as (st & r1 & r2 & m1 & m2 & m3 & m4 & o1 & o2 & -> & Hr & Hm & _ & _
        & Hr1 & Hr2 & Hn1 & Hn2 & H1 & H2 & H3 & H4).
  exists st, r1, r2, m1, m2, m3, m4, o1, o2. done.
Qed.


Lemma serialize_all_identified (docs : list dict) :
  Forall (λ d, is_Some (d !! "_id")) docs →
  ∃ l, serialize_all docs = Ok l ∧ Forall2 serialized_from docs l.
Proof.
  induction 1 as [|d docs [v Hv] _ (l & Hl & Hall)]; cbn [serialize_all].
  - exists []. split; [done|constructor].
  - unfold serialize. cbn [falsy]. rewrite (dict_is_empty_false d "_id" v Hv), Hv. cbn.
    rewrite Hl. cbn. eexists. split; [reflexivity|]. constructor; [|done].
    exists v, (<["id" := VStr (py_str v)]> (delete "_id" d)).
    split; [done|]. split; [done|]. split; [|split].
    + rewrite lookup_insert_ne by done. apply lookup_delete_eq.
    + apply lookup_insert_eq.
    + intros k Hk1 Hk2. rewrite lookup_insert_ne by done. by rewrite lookup_delete_ne.
Qed.

(** X14. [GET /restaurants] answers with one entry for each document the
    data layer returned, in the same order, each with [_id] replaced by
    [id] and its other fields kept, and does not change the store; this
    when every returned document carries [_id]. *)
Theorem list_restaurants_entries (db : store) (docs : list dict) :
  get_documents "restaurant" None db = Ok docs →
  Forall (λ d, is_Some (d !! "_id")) docs →
  fst (list_restaurants db) = db
  ∧ ∃ l, snd (list_restaurants db) = Ok l ∧ Forall2 serialized_from docs l.
Proof.
  intros Hdocs Hids. unfold list_restaurants, read. cbn [fst snd].
  split; [done|]. rewrite Hdocs. cbn. by apply serialize_all_identified.
Qed.




(** X17. A restaurant whose [delivery_fee] is stored as null, which the
    schema allows, cannot be ordered from: once the items have been
    priced, [float(None)] raises [TypeError], which nothing catches, and no
    order is stored. *)
Theorem null_delivery_fee_fails (payload : CreateOrder.t) (db : store)
    (subtotal : float) (rid : ObjectId) (rest : dict) :
  order_items_subtotal payload db = Ok subtotal →
  to_obj_id (CreateOrder.restaurant_id payload) = Ok rid →
  find_one_by_id db "restaurant" rid = Some rest →
  rest !! "delivery_fee" = Some VNone →
  create_order payload db = (db, Raise TypeError)
  ∧ http_status TypeError = 500.
Proof.
  intros Hsub Hrid Hrest Hfee. split; [|done].
  rewrite create_order_unfold. unfold order_record.
  rewrite Hsub. cbn. rewrite Hrid. cbn. rewrite Hrest.
  apply find_one_by_id_Some in Hrest as [_ Hid].
  cbn [falsy]. rewrite (dict_is_empty_false rest "_id" _ Hid).
  unfold restaurant_fee. by rewrite Hfee.
Qed.


(** X19. The address of the customer is checked last, when the [Order] is
    built: an order that has passed every check on items and restaurant but
    carries an address the validator refuses ends in a [ValidationError],
    which nothing catches, and is not stored. *)
Theorem invalid_email_fails (payload : CreateOrder.t) (db : store)
    (subtotal : float) (rid : ObjectId) (rest : dict) (fee : float) (e : string) :
  order_items_subtotal payload db = Ok subtotal →
  to_obj_id (CreateOrder.restaurant_id payload) = Ok rid →
  find_one_by_id db "restaurant" rid = Some rest →
  restaurant_fee rest = Ok fee →
  CreateOrder.customer_email payload = Some e →
  validate_email e = None →
  create_order payload db = (db, Raise ValidationError)
  ∧ http_status ValidationError = 500.
Proof.
  intros Hsub Hrid Hrest Hfee He Hbad. split; [|done].
  rewrite create_order_unfold. unfold order_record.
  rewrite Hsub. cbn. rewrite Hrid. cbn. rewrite Hrest.
  apply find_one_by_id_Some in Hrest as [_ Hid].
  cbn [falsy]. rewrite (dict_is_empty_false rest "_id" _ Hid). rewrite Hfee. cbn.
  unfold Order.validate. cbn. by rewrite He, Hbad.
Qed.



(** *** Fresh identifiers *)

Lemma hex_char_canonical (n : N) :
  (n < 16)%N → is_hex (hex_char n) = true ∧ lower (hex_char n) = hex_char n.
Proof.
  intros Hn. rewrite <- (N2Nat.id n).
  assert (N.to_nat n < 16)%nat as Hk by lia. revert Hk.
  generalize (N.to_nat n). intros k Hk.
  do 16 (destruct k as [|k]; [by vm_compute|]). lia.
Qed.

Lemma hex_digits_length k n acc :
  String.length (hex_digits k n acc) = (k + String.length acc)%nat.
Proof.
  revert n acc. induction k as [|k IH]; intros n acc; cbn [hex_digits]; [done|].
  rewrite IH. cbn. lia.
Qed.

Lemma hex_digits_canonical k n acc :
  string_forallb is_hex acc = true → string_map lower acc = acc →
  string_forallb is_hex (hex_digits k n acc) = true
  ∧ string_map lower (hex_digits k n acc) = hex_digits k n acc.
Proof.
  revert n acc. induction k as [|k IH]; intros n acc Hhex Hlow; cbn [hex_digits]; [done|].
  destruct (hex_char_canonical (n mod 16)%N) as [H1 H2].
  { apply N.mod_lt. done. }
  apply IH; cbn; [by rewrite H1, Hhex|by rewrite H2, Hlow].
Qed.

(** The identifier the store draws is well formed and canonical. *)
Lemma fresh_oid_parses db : to_obj_id (ObjectId_str (fresh_oid db)) = Ok (fresh_oid db).
Proof.
  unfold fresh_oid, to_obj_id, ObjectId_of_str. cbn [ObjectId_str].
  destruct (hex_digits_canonical 24 (next_oid db) "") as [H1 H2]; [done|done|].
  by rewrite hex_digits_length, H1, H2.
Qed.

(** X22. After the seeding of a store without restaurants, the
    [restaurant_id] of the first new menu item is an identifier that
    [GET /restaurants/{id}] accepts, and the restaurant it answers with is
    Pasta Palace, under that very [id]. *)
Theorem seeded_menu_leads_to_restaurant (db : store) :
  collection db "restaurant" = [] →
  ∃ (st : store) (m1 m2 m3 m4 : dict) (rid : string) (d' : dict),
    seed_sample_data (Some db) = (Some st, Ok ok_response)
    ∧ collection st "menuitem" = (collection db "menuitem" ++ [m1; m2; m3; m4])%list
    ∧ m1 !! "restaurant_id" = Some (VStr rid)
    ∧ get_restaurant rid st = (st, Ok (Some d'))
    ∧ d' !! "name" = Some (VStr "Pasta Palace")
    ∧ d' !! "id" = Some (VStr rid)
    ∧ d' !! "_id" = None.
Proof.
  intros H. unfold seed_sample_data.
  destruct (seed_store_fresh_detail db H)
    as (st & r1 & r2 & m1 & m2 & m3 & m4 & o1 & o2 & -> & Hr & Hm & _ & Ho1
        & Hr1 & _ & Hn1 & _ & H1 & _).
  exists st, m1, m2, m3, m4, (ObjectId_str o1),
    (<["id" := VStr (ObjectId_str o1)]> (delete "_id" r1)).
  split; [done|]. split; [done|]. split; [done|].
  split; [|split; [|split]].
  - unfold get_restaurant, read. subst o1. rewrite fresh_oid_parses. cbn.
    unfold find_one_by_id. rewrite Hr. cbn [List.find].
    rewrite (proj2 (has_id_spec _ _) Hr1). cbn [falsy].
    rewrite (dict_is_empty_false r1 "_id" _ Hr1).
    unfold serialize. cbn [falsy]. rewrite (dict_is_empty_false r1 "_id" _ Hr1).
    by rewrite Hr1.
  - rewrite lookup_insert_ne by done. by rewrite lookup_delete_ne.
  - apply lookup_insert_eq.
  - rewrite lookup_insert_ne by done. apply lookup_delete_eq.
Qed.

Lemma ids_check (docs : list dict) :
  forallb (λ d, is_Some_b (d !! "_id")) docs = true →
  Forall (λ d, is_Some (d !! "_id")) docs.
Proof.
  intros H. apply List.Forall_forall. intros d Hd.
  pose proof (proj1 (forallb_forall _ _) H d Hd) as Hid. cbn beta in Hid.
  destruct (d !! "_id"); [by eexists|done].
Qed.

End Runtime.

Lemma serialize_replaces_id_witness :
  ∃ d' : dict,
    serialize sample_repr_float sample_repr_container (Some identified_record) = Ok (Some d')
    ∧ d' !! "_id" = None
    ∧ d' !! "id" = Some (VStr (py_str sample_repr_float sample_repr_container
                                 (VObjectId (OID "000000000000000000000000"))))
    ∧ ∀ k : string, k ≠ "_id" → k ≠ "id" → d' !! k = identified_record !! k.
Proof.
  destruct (serialize_replaces_id sample_repr_float sample_repr_container) as (_ & _ & H).
  apply (H identified_record (VObjectId (OID "000000000000000000000000"))).
  vm_compute. reflexivity.
Defined.

Lemma serialize_without_id_witness :
  serialize sample_repr_float sample_repr_container (Some unidentified_record)
    = Raise (KeyError "_id")
  ∧ serialize sample_repr_float sample_repr_container (Some unidentified_record)
    ≠ Ok (Some unidentified_record).
Proof.
  apply (serialize_without_id sample_repr_float sample_repr_container unidentified_record);
    vm_compute; reflexivity.
Defined.

Lemma create_order_empty_items_witness :
  create_order sample_repr_float sample_repr_container sample_float_of_str
    sample_validate_email (sample_payload pasta_palace_id []) seeded_store
  = (seeded_store, Raise (HTTPException 400 "Invalid items")).
Proof.
  apply (create_order_empty_items sample_repr_float sample_repr_container
           sample_float_of_str sample_validate_email
           (sample_payload pasta_palace_id []) seeded_store).
  reflexivity.
Defined.





(** C3 fails as stated: the first item resolves, the second is well formed
    and resolves to nothing, yet the answer is not a 400: the first line
    overflows before the second item is looked at. *)
Lemma partial_miss_counterexample :
  CreateOrder.valid huge_quantity_order
  ∧ is_Some (find_one_by_id seeded_store "menuitem" (OID margherita_id))
  ∧ to_obj_id absent_id = Ok (OID absent_id)
  ∧ find_one_by_id seeded_store "menuitem" (OID absent_id) = None
  ∧ snd (create_order sample_repr_float sample_repr_container sample_float_of_str
           sample_validate_email huge_quantity_order seeded_store)
    = Raise OverflowError
  ∧ http_status OverflowError = 500.
Proof.
  split.
  { repeat constructor; vm_compute; discriminate. }
  split.
  { assert (field "_id" (find_one_by_id seeded_store "menuitem" (OID margherita_id))
            = Some (VObjectId (OID margherita_id))) as H by (vm_compute; reflexivity).
    destruct (find_one_by_id seeded_store "menuitem" (OID margherita_id)); [by eexists|].
    discriminate H. }
  repeat split; vm_compute; reflexivity.
Defined.

Lemma partial_miss_refused_witness :
  (∃ e, create_order sample_repr_float sample_repr_container sample_float_of_str
          sample_validate_email partial_miss_order seeded_store
        = (seeded_store, Raise e))
  ∧ ∃ detail,
      create_order sample_repr_float sample_repr_container sample_float_of_str
        sample_validate_email partial_miss_order seeded_store
      = (seeded_store, Raise (HTTPException 400 detail)).
Proof.
  destruct (partial_miss_refused sample_repr_float sample_repr_container
              sample_float_of_str sample_validate_email
              partial_miss_order seeded_store
              [OrderItem.Make margherita_id 2] [] (OrderItem.Make absent_id 1)
              (OID absent_id)) as [H1 H2].
  - reflexivity.
  - vm_compute. reflexivity.
  - vm_compute. reflexivity.
  - split; [exact H1|]. apply H2. intros it' d Hit Hd _.
    apply (lines_check sample_float_of_str seeded_store [OrderItem.Make margherita_id 2]);
      [vm_compute; reflexivity|done|done].
Defined.



Lemma serialize_twice_fails_witness :
  ∃ d' : dict,
    serialize sample_repr_float sample_repr_container (Some identified_record)
      = Ok (Some d')
    ∧ serialize sample_repr_float sample_repr_container (Some d')
      = Raise (KeyError "_id").
Proof.
  apply (serialize_twice_fails sample_repr_float sample_repr_container
           identified_record (VObjectId (OID "000000000000000000000000"))).
  vm_compute. reflexivity.
Defined.

Lemma create_order_refusal_keeps_store_witness :
  fst (create_order sample_repr_float sample_repr_container sample_float_of_str
         sample_validate_email malformed_item_order seeded_store)
  = seeded_store.
Proof.
  apply (create_order_refusal_keeps_store sample_repr_float sample_repr_container
           sample_float_of_str sample_validate_email
           malformed_item_order seeded_store (HTTPException 400 "Invalid id")).
  vm_compute. reflexivity.
Defined.

Lemma create_order_effect_witness :
  ∃ (doc : dict) (o : ObjectId),
    collection
      (fst (create_order sample_repr_float sample_repr_container sample_float_of_str
              sample_validate_email sample_order seeded_store)) "order"
      = (collection seeded_store "order" ++ [doc])%list
    ∧ (∀ name, name ≠ "order" →
         collection
           (fst (create_order sample_repr_float sample_repr_container sample_float_of_str
                   sample_validate_email sample_order seeded_store)) name
         = collection seeded_store name)
    ∧ doc !! "_id" = Some (VObjectId o)
    ∧ order_response "000000000000000000000006" 43.47 !! "id"
      = Some (VStr (ObjectId_str o))
    ∧ order_response "000000000000000000000006" 43.47 !! "status"
      = Some (VStr "pending")
    ∧ doc !! "status" = Some (VStr "pending")
    ∧ doc !! "restaurant_id" = Some (VStr (CreateOrder.restaurant_id sample_order))
    ∧ doc !! "customer_id" = Some VNone
    ∧ doc !! "items" = Some (VList (map OrderItem.dump (CreateOrder.items sample_order))).
Proof.
  apply (create_order_effect sample_repr_float sample_repr_container sample_float_of_str
           sample_validate_email sample_order seeded_store
           (order_response "000000000000000000000006" 43.47)).
  vm_compute. reflexivity.
Defined.

Lemma create_order_http_errors_witness :
  (400 = 400 ∧ ("Menu item not found" = "Invalid id"
                ∨ "Menu item not found" = "Invalid items"
                ∨ "Menu item not found" = "Menu item not found"))
  ∨ (400 = 404 ∧ "Menu item not found" = "Restaurant not found").
Proof.
  apply (create_order_http_errors sample_repr_float sample_repr_container
           sample_float_of_str sample_validate_email
           partial_miss_order seeded_store 400 "Menu item not found").
  vm_compute. reflexivity.
Defined.


Lemma unresolved_items_refused_witness :
  create_order sample_repr_float sample_repr_container sample_float_of_str
    sample_validate_email (sample_payload pasta_palace_id [OrderItem.Make absent_id 1])
    seeded_store
  = (seeded_store, Raise (HTTPException 400 "Invalid items")).
Proof.
  apply (unresolved_items_refused sample_repr_float sample_repr_container
           sample_float_of_str sample_validate_email
           (sample_payload pasta_palace_id [OrderItem.Make absent_id 1]) seeded_store).
  intros it [<-|[]]. exists (OID absent_id).
  split; vm_compute; reflexivity.
Defined.

Lemma noncanonical_item_refused_witness :
  is_Some (find_one_by_id late_seeded_store "menuitem" (OID "00000000000000000000000c"))
  ∧ ∃ e,
      create_order sample_repr_float sample_repr_container sample_float_of_str
        sample_validate_email uppercase_order late_seeded_store
      = (late_seeded_store, Raise e).
Proof.
  split.
  { assert (is_Some_b (find_one_by_id late_seeded_store "menuitem"
                         (OID "00000000000000000000000c")) = true) as H
      by (vm_compute; reflexivity).
    destruct (find_one_by_id late_seeded_store "menuitem" (OID "00000000000000000000000c"));
      [by eexists|discriminate H]. }
  apply (noncanonical_item_refused sample_repr_float sample_repr_container
           sample_float_of_str sample_validate_email
           uppercase_order late_seeded_store
           (OrderItem.Make "00000000000000000000000C" 1)
           (OID "00000000000000000000000c")).
  - left. reflexivity.
  - vm_compute. reflexivity.
  - vm_compute. discriminate.
Defined.

Lemma seed_guard_witness :
  seed_sample_data (Some seeded_store) = (Some seeded_store, Ok ok_response)
  ∧ ∃ st m1 m2 m3 m4,
      seed_sample_data (Some (empty_store 0)) = (Some st, Ok ok_response)
      ∧ length (collection st "restaurant") = 2%nat
      ∧ collection st "menuitem"
        = (collection (empty_store 0) "menuitem" ++ [m1; m2; m3; m4])%list
      ∧ ∀ name, name ≠ "restaurant" → name ≠ "menuitem" →
          collection st name = collection (empty_store 0) name.
Proof.
  split.
  - apply (proj1 (seed_guard seeded_store)).
    intros H. apply (f_equal length) in H. vm_compute in H. discriminate H.
  - apply (proj2 (seed_guard (empty_store 0))). vm_compute. reflexivity.
Defined.

Lemma seed_links_menu_to_restaurants_witness :
  ∃ st r1 r2 m1 m2 m3 m4 o1 o2,
    seed_sample_data (Some (empty_store 3)) = (Some st, Ok ok_response)
    ∧ collection st "restaurant" = [r1; r2]
    ∧ collection st "menuitem"
      = (collection (empty_store 3) "menuitem" ++ [m1; m2; m3; m4])%list
    ∧ r1 !! "name" = Some (VStr "Pasta Palace")
    ∧ r1 !! "_id" = Some (VObjectId o1)
    ∧ r2 !! "name" = Some (VStr "Spice Route")
    ∧ r2 !! "_id" = Some (VObjectId o2)
    ∧ m1 !! "restaurant_id" = Some (VStr (ObjectId_str o1))
    ∧ m2 !! "restaurant_id" = Some (VStr (ObjectId_str o1))
    ∧ m3 !! "restaurant_id" = Some (VStr (ObjectId_str o2))
    ∧ m4 !! "restaurant_id" = Some (VStr (ObjectId_str o2)).
Proof.
  apply (seed_links_menu_to_restaurants (empty_store 3)). vm_compute. reflexivity.
Defined.

Lemma list_restaurants_entries_witness :
  fst (list_restaurants sample_repr_float sample_repr_container sample_get_documents
         seeded_store) = seeded_store
  ∧ ∃ l,
      snd (list_restaurants sample_repr_float sample_repr_container sample_get_documents
             seeded_store) = Ok l
      ∧ Forall2 (serialized_from sample_repr_float sample_repr_container)
          (collection seeded_store "restaurant") l.
Proof.
  apply (list_restaurants_entries sample_repr_float sample_repr_container
           sample_get_documents seeded_store (collection seeded_store "restaurant")).
  - reflexivity.
  - apply ids_check. vm_compute. reflexivity.
Defined.



Lemma null_delivery_fee_fails_witness :
  Restaurant.validate null_fee_restaurant = Ok null_fee_restaurant
  ∧ create_order sample_repr_float sample_repr_container sample_float_of_str
      sample_validate_email seventh_id_order null_fee_store
    = (null_fee_store, Raise TypeError)
  ∧ http_status TypeError = 500.
Proof.
  split; [vm_compute; reflexivity|].
  assert (field "delivery_fee"
            (find_one_by_id null_fee_store "restaurant" (OID unpriced_id))
          = Some VNone) as Hfee by (vm_compute; reflexivity).
  destruct (find_one_by_id null_fee_store "restaurant" (OID unpriced_id))
    as [rest|] eqn:Hrest; [|discriminate Hfee].
  apply (null_delivery_fee_fails sample_repr_float sample_repr_container
           sample_float_of_str sample_validate_email
           seventh_id_order null_fee_store 12.99%float (OID unpriced_id) rest).
  - vm_compute. reflexivity.
  - vm_compute. reflexivity.
  - exact Hrest.
  - exact Hfee.
Defined.


Lemma invalid_email_fails_witness :
  create_order sample_repr_float sample_repr_container sample_float_of_str
    strict_validate_email bad_email_order seeded_store
  = (seeded_store, Raise ValidationError)
  ∧ http_status ValidationError = 500.
Proof.
  assert (match find_one_by_id seeded_store "restaurant" (OID pasta_palace_id) with
          | Some r => restaurant_fee sample_float_of_str r
          | None => Raise TypeError
          end = Ok 2.99%float) as Hfee by (vm_compute; reflexivity).
  destruct (find_one_by_id seeded_store "restaurant" (OID pasta_palace_id))
    as [rest|] eqn:Hrest; [|discriminate Hfee].
  apply (invalid_email_fails sample_repr_float sample_repr_container
           sample_float_of_str strict_validate_email
           bad_email_order seeded_store 12.99%float (OID pasta_palace_id) rest
           2.99%float "not an address").
  - vm_compute. reflexivity.
  - vm_compute. reflexivity.
  - exact Hrest.
  - exact Hfee.
  - reflexivity.
  - vm_compute. reflexivity.
Defined.

Lemma seeded_menu_leads_to_restaurant_witness :
  ∃ (st : store) (m1 m2 m3 m4 : dict) (rid : string) (d' : dict),
    seed_sample_data (Some (empty_store 3)) = (Some st, Ok ok_response)
    ∧ collection st "menuitem"
      = (collection (empty_store 3) "menuitem" ++ [m1; m2; m3; m4])%list
    ∧ m1 !! "restaurant_id" = Some (VStr rid)
    ∧ get_restaurant sample_repr_float sample_repr_container rid st = (st, Ok (Some d'))
    ∧ d' !! "name" = Some (VStr "Pasta Palace")
    ∧ d' !! "id" = Some (VStr rid)
    ∧ d' !! "_id" = None.
Proof.
  apply (seeded_menu_leads_to_restaurant sample_repr_float sample_repr_container
           (empty_store 3)).
  vm_compute. reflexivity.
Defined.
